(** * Verification of [functions/internal/util/util.go]

    A shallow embedding of the [util] package of the Covid Watch cloud
    functions: the [StatusError] taxonomy, the error converters, the
    injectable clock carried by [context.Context], the transaction wrapper
    and the forwarded-protocol check.

    Go strings are byte sequences, so they are modelled by [string] (a
    sequence of 8-bit [ascii]).  Go interface values are modelled by
    inductive types whose constructors are the dynamic types that can occur;
    the nil interface is a constructor of its own. *)

From Stdlib Require Import ZArith String Ascii List Bool Lia.
From stdpp Require Import gmap strings.
Import ListNotations.

Local Open Scope string_scope.
Local Arguments String.append : simpl nomatch.

(** ** Results of Go calls that may panic *)

Inductive outcome (A : Type) : Type :=
| Returns (a : A)
| Panics (reason : string).
Arguments Returns {A} a.
Arguments Panics {A} reason.

(** ** Constants of the libraries the package imports *)

(** [net/http] status codes used by the package. *)
Module http.
Definition StatusBadRequest : Z := 400%Z.
Definition StatusMethodNotAllowed : Z := 405%Z.
Definition StatusTeapot : Z := 418%Z.
Definition StatusInternalServerError : Z := 500%Z.
Definition StatusNotImplemented : Z := 501%Z.
End http.

(** [google.golang.org/grpc/codes]. *)
Module codes.
Inductive Code : Type :=
| OK | Canceled | Unknown | InvalidArgument | DeadlineExceeded | NotFound
| AlreadyExists | PermissionDenied | ResourceExhausted | FailedPrecondition
| Aborted | OutOfRange | Unimplemented | Internal | Unavailable | DataLoss
| Unauthenticated.

Definition eqb (a b : Code) : bool :=
  match a, b with
  | OK, OK | Canceled, Canceled | Unknown, Unknown
  | InvalidArgument, InvalidArgument | DeadlineExceeded, DeadlineExceeded
  | NotFound, NotFound | AlreadyExists, AlreadyExists
  | PermissionDenied, PermissionDenied
  | ResourceExhausted, ResourceExhausted
  | FailedPrecondition, FailedPrecondition | Aborted, Aborted
  | OutOfRange, OutOfRange | Unimplemented, Unimplemented
  | Internal, Internal | Unavailable, Unavailable | DataLoss, DataLoss
  | Unauthenticated, Unauthenticated => true
  | _, _ => false
  end.

Definition String (c : Code) : string :=
  match c with
  | OK => "OK" | Canceled => "Canceled" | Unknown => "Unknown"
  | InvalidArgument => "InvalidArgument"
  | DeadlineExceeded => "DeadlineExceeded" | NotFound => "NotFound"
  | AlreadyExists => "AlreadyExists"
  | PermissionDenied => "PermissionDenied"
  | ResourceExhausted => "ResourceExhausted"
  | FailedPrecondition => "FailedPrecondition" | Aborted => "Aborted"
  | OutOfRange => "OutOfRange" | Unimplemented => "Unimplemented"
  | Internal => "Internal" | Unavailable => "Unavailable"
  | DataLoss => "DataLoss" | Unauthenticated => "Unauthenticated"
  end.
End codes.

(** The error types that [encoding/json] defines.  All of them implement
    [error] on the pointer type, which is what the type switch of
    [JSONToStatusError] names. *)
Module json.
Inductive ErrorType : Type :=
| MarshalerError | SyntaxError | UnmarshalFieldError | UnmarshalTypeError
| UnsupportedTypeError | UnsupportedValueError
| InvalidUnmarshalError | InvalidUTF8Error.
End json.

(** ** Error values

    A value of the interface type [error] is nil or carries one of the
    dynamic types below.  [io.EOF] and [io.ErrUnexpectedEOF] are the two
    sentinel pointers of package [io]; every other value made by
    [errors.New] or [fmt.Errorf] is a pointer distinct from them, so that
    the comparison [err == io.EOF] is the test for the constructor.
    [statusError] is the struct of this package; it embeds an [error].

    The values of pointer types are the ones that point to something: an
    interface that holds a nil pointer, say a nil [json.SyntaxError]
    pointer, is not nil and its [Error] panics; such values are left out
    here. *)

Inductive error : Type :=
| nil_error
| errorString (s : string)
| io_EOF
| io_ErrUnexpectedEOF
| jsonError (t : json.ErrorType) (msg : string)
| grpcStatusError (c : codes.Code) (desc : string)
| foreignError (typ : string) (msg : string)
| statusErr (e : statusError)
with statusError : Type :=
| Build_statusError (code : Z) (message : string) (embedded : error).

Definition code (e : statusError) : Z :=
  let 'Build_statusError c _ _ := e in c.
Definition message (e : statusError) : string :=
  let 'Build_statusError _ m _ := e in m.
Definition embedded (e : statusError) : error :=
  let 'Build_statusError _ _ x := e in x.

(** The interface [StatusError]: nil, or a value whose method set has
    [HTTPStatusCode] and [Message].  [statusError] is the only type of the
    package that implements it. *)
Definition StatusError : Type := option statusError.

(** Conversion of a [StatusError] to [error] (a nil interface stays nil). *)
Definition as_error (e : StatusError) : error :=
  match e with
  | None => nil_error
  | Some se => statusErr se
  end.

(** The type assertion [err.(StatusError)]. *)
Definition assert_StatusError (err : error) : option statusError :=
  match err with
  | statusErr se => Some se
  | _ => None
  end.

Definition errors_New (s : string) : error := errorString s.

(** [fmt.Errorf("unsupported method: %v", method)]: the verb [%v] prints a
    string operand as it is, and without [%w] the result is [errors.New]
    of the formatted text. *)
Definition fmt_Errorf_v (prefix operand : string) : error :=
  errors_New (prefix ++ operand).

(** The method [Error].  Calling it through a nil interface panics. *)
Fixpoint Error (e : error) : outcome string :=
  match e with
  | nil_error => Panics "invalid memory address or nil pointer dereference"
  | errorString s => Returns s
  | io_EOF => Returns "EOF"
  | io_ErrUnexpectedEOF => Returns "unexpected EOF"
  | jsonError _ msg => Returns msg
  | grpcStatusError c desc =>
      Returns ("rpc error: code = " ++ codes.String c ++ " desc = " ++ desc)
  | foreignError _ msg => Returns msg
  | statusErr (Build_statusError _ _ x) => Error x
  end.

(** [status.Code] of package [google.golang.org/grpc/status]: [OK] for nil,
    the code of an error that carries a gRPC status, [Unknown] otherwise. *)
Module status.
Definition Code (err : error) : codes.Code :=
  match err with
  | nil_error => codes.OK
  | grpcStatusError c _ => c
  | _ => codes.Unknown
  end.
End status.

(** ** The [statusError] methods and constructors *)

Definition HTTPStatusCode (e : statusError) : Z := code e.

Definition Message (e : statusError) : outcome string :=
  if negb (String.eqb (message e) "") then Returns (message e)
  else Error (embedded e).

Definition NewInternalServerError (err : error) : StatusError :=
  Some (Build_statusError http.StatusInternalServerError
          "internal server error" err).

Definition NewBadRequestError (err : error) : StatusError :=
  Some (Build_statusError http.StatusBadRequest "" err).

Definition NewMethodNotAllowedError (method : string) : StatusError :=
  Some (Build_statusError http.StatusMethodNotAllowed ""
          (fmt_Errorf_v "unsupported method: " method)).

Definition NewNotImplementedError : StatusError :=
  Some (Build_statusError http.StatusNotImplemented ""
          (errors_New "not implemented")).

Definition NotFoundError : StatusError :=
  NewBadRequestError (errors_New "not found").

Definition newStatusError (code : Z) (err : error) : statusError :=
  Build_statusError code "" err.

Definition FirestoreToStatusError (err : error) : StatusError :=
  match assert_StatusError err with
  | Some se => Some se
  | None =>
      if codes.eqb (status.Code err) codes.NotFound then NotFoundError
      else NewInternalServerError err
  end.

(** The comparisons [err == io.EOF] and [err == io.ErrUnexpectedEOF]. *)
Definition is_io_EOF (err : error) : bool :=
  match err with io_EOF => true | _ => false end.
Definition is_io_ErrUnexpectedEOF (err : error) : bool :=
  match err with io_ErrUnexpectedEOF => true | _ => false end.

Definition JSONToStatusError (err : error) : StatusError :=
  match err with
  | statusErr se => Some se
  | jsonError json.MarshalerError _
  | jsonError json.SyntaxError _
  | jsonError json.UnmarshalFieldError _
  | jsonError json.UnmarshalTypeError _
  | jsonError json.UnsupportedTypeError _
  | jsonError json.UnsupportedValueError _ => NewBadRequestError err
  | _ =>
      if is_io_EOF err || is_io_ErrUnexpectedEOF err
      then NewBadRequestError err
      else NewInternalServerError err
  end.

(** ** Time and the injectable clock *)

(** [int64(x)]: conversion to a signed 64-bit integer, with wrap-around. *)
Definition int64 (x : Z) : Z :=
  ((x + 2 ^ 63) mod 2 ^ 64 - 2 ^ 63)%Z.

(** A [time.Duration] is an [int64] count of nanoseconds. *)
Definition Duration : Type := Z.

(** A [time.Time], as seconds since the Unix epoch and nanoseconds within the
    second. *)
Record Time : Type := unixTime { sec : Z; nsec : Z }.

(** [time.Unix(sec, nsec)]: [nsec] outside [0, 1e9) is carried into [sec];
    Go's integer division truncates toward zero ([Z.quot]). *)
Definition time_Unix (sec nsec : Z) : Time :=
  if ((nsec <? 0) || (1000000000 <=? nsec))%Z then
    let n := (nsec ÷ 1000000000)%Z in
    let sec := (sec + n)%Z in
    let nsec := (nsec - n * 1000000000)%Z in
    if (nsec <? 0)%Z then unixTime (sec - 1) (nsec + 1000000000)
    else unixTime sec nsec
  else unixTime sec nsec.

(** The test double of the store; only its identity matters here. *)
Record TestFirestore : Type := { projectID : string }.

(** Keys of context values.  [fakeClockKey] and [testFirestoreContextKey]
    are the unexported key types of this package; [foreignKey] stands for
    any key of another package. *)
Inductive contextKey : Type :=
| fakeClockKey
| testFirestoreContextKey
| foreignKey (name : string).

Definition contextKey_eqb (a b : contextKey) : bool :=
  match a, b with
  | fakeClockKey, fakeClockKey => true
  | testFirestoreContextKey, testFirestoreContextKey => true
  | foreignKey x, foreignKey y => String.eqb x y
  | _, _ => false
  end.

(** Values of type [interface{}] stored in a context: nil, a
    [*time.Duration], a [*TestFirestore] (possibly a nil pointer), or a value
    of some other type. *)
Inductive any : Type :=
| any_nil
| any_Duration (p : Duration)
| any_TestFirestore (store : option TestFirestore)
| any_other (descr : string).

(** [context.Context], as the chain that [context.WithValue] builds over
    [context.Background]. *)
Inductive context : Type :=
| Background
| WithValue (parent : context) (key : contextKey) (val : any).

Fixpoint Value (ctx : context) (key : contextKey) : any :=
  match ctx with
  | Background => any_nil
  | WithValue parent k v =>
      if contextKey_eqb k key then v else Value parent key
  end.

Definition WithTestFirestore (parent : context) (store : option TestFirestore)
  : context :=
  WithValue parent testFirestoreContextKey (any_TestFirestore store).

Definition WithFakeClock (parent : context) (time : Duration) : context :=
  WithValue parent fakeClockKey (any_Duration time).

(** [Now]; the reading of the system clock, [time.Now()], is the first
    argument. *)
Definition Now (time_Now : Time) (ctx : context) : outcome Time :=
  match Value ctx fakeClockKey with
  | any_nil => Returns time_Now
  | any_Duration t => Returns (time_Unix 0 (int64 t))
  | _ => Panics "unreachable"
  end.

(** The contexts that a program can build: outside this package only keys
    of other packages can be named; this package adds values through
    [WithFakeClock] and [WithTestFirestore] only. *)
Inductive constructible : context -> Prop :=
| constructible_Background : constructible Background
| constructible_foreign parent name val :
    constructible parent ->
    constructible (WithValue parent (foreignKey name) val)
| constructible_WithFakeClock parent t :
    constructible parent -> constructible (WithFakeClock parent t)
| constructible_WithTestFirestore parent store :
    constructible parent -> constructible (WithTestFirestore parent store).

(** ** Strings *)

Module strings.
Definition lower_byte (c : ascii) : ascii :=
  let n := nat_of_ascii c in
  if (65 <=? n)%nat && (n <=? 90)%nat then ascii_of_nat (n + 32) else c.

(** [strings.ToLower], on the ASCII letters.  Go also maps the upper-case
    letters outside ASCII; none of them is mapped to a letter of "https",
    so the comparisons of this package are not affected. *)
Fixpoint ToLower (s : string) : string :=
  match s with
  | EmptyString => EmptyString
  | String c rest => String (lower_byte c) (ToLower rest)
  end.
End strings.

(** ** Regular expressions

    The fragment of Go's [regexp] syntax that [protoRegex] uses: literals,
    possibly under the case-insensitive flag, concatenation, alternation,
    non-capturing and capturing groups.  Matching is leftmost-first, the
    match that a backtracking search finds first, as in Go. *)

Module regexp.
Inductive Regexp : Type :=
| Literal (fold : bool) (c : ascii)
| Concat (a b : Regexp)
| Alternate (a b : Regexp)
| NonCapture (r : Regexp)
| Capture (index : nat) (r : Regexp).

(** The literal text [s], letter by letter ([s] is not empty). *)
Fixpoint literal (fold : bool) (c : ascii) (s : string) : Regexp :=
  match s with
  | EmptyString => Literal fold c
  | String d rest => Concat (Literal fold c) (literal fold d rest)
  end.

Fixpoint NumSubexp (r : Regexp) : nat :=
  match r with
  | Literal _ _ => 0
  | Concat a b | Alternate a b => NumSubexp a + NumSubexp b
  | NonCapture a => NumSubexp a
  | Capture _ a => S (NumSubexp a)
  end.

(** [strip p s]: [s] without its prefix [p], if it has that prefix. *)
Fixpoint strip (p s : string) : option string :=
  match p, s with
  | EmptyString, _ => Some s
  | String a p', String b s' =>
      if Ascii.eqb a b then strip p' s' else None
  | String _ _, EmptyString => None
  end.

(** Under the flag [(?i)] a letter also matches the runes of its Unicode
    simple-folding orbit.  For the ASCII letters these are the other case,
    and, outside ASCII, U+017F (long s, bytes C5 BF) for [s] and U+212A
    (Kelvin sign, bytes E2 84 AA) for [k]. *)
Definition fold_orbit (c : ascii) : option string :=
  let l := strings.lower_byte c in
  if Ascii.eqb l "s" then Some (String "197" (String "191" EmptyString))
  else if Ascii.eqb l "k"
  then Some (String "226" (String "132" (String "170" EmptyString)))
  else None.

(** One rune of the input against a literal: the rest of the input and the
    number of bytes consumed. *)
Definition step (fold : bool) (c : ascii) (input : string)
  : option (string * nat) :=
  match input with
  | EmptyString => None
  | String a rest =>
      if fold then
        if Ascii.eqb (strings.lower_byte a) (strings.lower_byte c)
        then Some (rest, 1)
        else
          match fold_orbit c with
          | Some u =>
              match strip u input with
              | Some rest' => Some (rest', String.length u)
              | None => None
              end
          | None => None
          end
      else if Ascii.eqb a c then Some (rest, 1) else None
  end.

(** Capture registers: group index, start and end offsets. *)
Definition captures : Type := list (nat * (nat * nat)).

Fixpoint capture_lookup (i : nat) (cs : captures) : option (nat * nat) :=
  match cs with
  | [] => None
  | (j, span) :: rest =>
      if Nat.eqb i j then Some span else capture_lookup i rest
  end.

(** Backtracking match of [r] on [input], which starts at offset [pos];
    [k] is the rest of the match. *)
Fixpoint run (r : Regexp) (input : string) (pos : nat) (cs : captures)
    (k : string -> nat -> captures -> option (nat * captures))
  : option (nat * captures) :=
  match r with
  | Literal fold c =>
      match step fold c input with
      | Some (rest, n) => k rest (pos + n) cs
      | None => None
      end
  | Concat a b =>
      run a input pos cs (fun rest pos' cs' => run b rest pos' cs' k)
  | Alternate a b =>
      match run a input pos cs k with
      | Some m => Some m
      | None => run b input pos cs k
      end
  | NonCapture a => run a input pos cs k
  | Capture i a =>
      run a input pos cs
        (fun rest pos' cs' => k rest pos' ((i, (pos, pos')) :: cs'))
  end.

Definition match_at (r : Regexp) (input : string) (pos : nat)
  : option (nat * captures) :=
  run r input pos [] (fun _ pos' cs => Some (pos', cs)).

(** The leftmost match: every start offset, from left to right. *)
Fixpoint search (r : Regexp) (input : string) (start : nat)
  : option (nat * nat * captures) :=
  match match_at r input start with
  | Some (stop, cs) => Some (start, stop, cs)
  | None =>
      match input with
      | EmptyString => None
      | String _ rest => search r rest (S start)
      end
  end.

(** [FindStringSubmatch]: nil when there is no match; otherwise a slice of
    [1 + NumSubexp] strings, the text of the match followed by the text of
    every capturing group (empty for a group that took no part in the
    match). *)
Definition FindStringSubmatch (r : Regexp) (s : string) : list string :=
  match search r s 0 with
  | None => []
  | Some (start, stop, cs) =>
      substring start (stop - start) s
      :: map (fun i =>
                match capture_lookup i cs with
                | Some (b, e) => substring b (e - b) s
                | None => EmptyString
                end)
           (seq 1 (NumSubexp r))
  end.
End regexp.

(** ** HTTP requests *)

Module textproto.
(** The bytes allowed in a header field name (RFC 7230 token). *)
Definition validHeaderFieldByte (c : ascii) : bool :=
  let n := nat_of_ascii c in
  ((48 <=? n) && (n <=? 57) || (65 <=? n) && (n <=? 90)
   || (97 <=? n) && (n <=? 122))%nat
  || existsb (Ascii.eqb c)
       (list_ascii_of_string "!#$%&'*+-.^_`|~").

Fixpoint all_valid (s : string) : bool :=
  match s with
  | EmptyString => true
  | String c rest => validHeaderFieldByte c && all_valid rest
  end.

Definition upper_byte (c : ascii) : ascii :=
  let n := nat_of_ascii c in
  if (97 <=? n)%nat && (n <=? 122)%nat then ascii_of_nat (n - 32) else c.

Fixpoint canonical (upper : bool) (s : string) : string :=
  match s with
  | EmptyString => EmptyString
  | String c rest =>
      let c' := if upper then upper_byte c else strings.lower_byte c in
      String c' (canonical (Ascii.eqb c' "-") rest)
  end.

(** [CanonicalMIMEHeaderKey]: the first letter and every letter after a
    hyphen in upper case, the others in lower case; a key with a byte
    that is not allowed in a field name is returned unchanged. *)
Definition CanonicalMIMEHeaderKey (s : string) : string :=
  if all_valid s then canonical true s else s.
End textproto.

(** [http.Header]: a map from canonical keys to the values of the field. *)
Abbreviation http_Header := (gmap string (list string)).

Definition CanonicalHeaderKey (s : string) : string :=
  textproto.CanonicalMIMEHeaderKey s.

(** [Header.Get]: the first value of the key, or the empty string. *)
Definition Header_Get (h : http_Header) (key : string) : string :=
  match h !! CanonicalHeaderKey key with
  | Some (v :: _) => v
  | _ => ""
  end.

Record Request : Type := {
  Method : string;
  Header : http_Header;
  Request_Context : context
}.

(** ** The forwarded-protocol check *)

Definition xForwardedProto : string := CanonicalHeaderKey "X-Forwarded-Proto".
Definition forwarded : string := CanonicalHeaderKey "Forwarded".

(** [regexp.MustCompile(`(?i)(?:proto=)(https|http)`)]. *)
Definition protoRegex : regexp.Regexp :=
  regexp.Concat
    (regexp.NonCapture (regexp.literal true "p" "roto="))
    (regexp.Capture 1
       (regexp.Alternate (regexp.literal true "h" "ttps")
                         (regexp.literal true "h" "ttp"))).

(** The first part of [checkHTTPS]: the scheme, or the early return. *)
Definition forwarded_scheme (r : Request) : string + StatusError :=
  let proto := Header_Get (Header r) xForwardedProto in
  if negb (String.eqb proto "") then inl (strings.ToLower proto)
  else
    let proto := Header_Get (Header r) forwarded in
    if negb (String.eqb proto "") then
      let match_ := regexp.FindStringSubmatch protoRegex proto in
      if (length match_ =? 2)%nat
      then inl (strings.ToLower (nth 1 match_ ""))
      else if (2 <? length match_)%nat
      then inr (NewInternalServerError
                  (errors_New "Header 'forward' has more than 2 elements"))
      else inl ""
    else inl "".

Definition checkHTTPS (r : Request) : StatusError :=
  match forwarded_scheme r with
  | inr e => e
  | inl scheme =>
      if negb (String.eqb scheme "https")
      then Some (newStatusError http.StatusTeapot
                   (errors_New
                      "unsupported protocol HTTP; only HTTPS is supported"))
      else None
  end.

(** ** The store and the request context *)

(** The handle that the store passes to the callback of a transaction;
    the attempt it belongs to identifies it. *)
Inductive Transaction : Type :=
| transaction_of_attempt (n : nat).

(** [*firestore.Client], by the one method the package calls:
    [Client.RunTransaction(ctx, f)]. *)
Record firestore_Client : Type := {
  Client_RunTransaction :
    context -> (context -> Transaction -> error) -> error
}.

(** What the store does in one attempt of a transaction: the error of
    beginning it and the error of committing it (nil for success). *)
Record attempt : Type := { begin_err : error; commit_err : error }.

(** The attempts of [Client.RunTransaction] as its documentation describes
    them: an error of the callback rolls the transaction back and is
    returned as it is; a commit that fails with [Aborted] is retried while
    attempts remain; every other result of the commit is returned.

    The script lists the attempts that the client makes, so it is not empty
    and, for a client called without [MaxAttempts] as here, it has at most
    five entries.  The errors that the client raises by itself (a nested
    transaction, a read after a write, a cancelled context while it waits)
    are not part of this model; [RunTransaction] below is defined for any
    client, and treats them as any other error. *)
Fixpoint run_attempts (script : list attempt) (n : nat) (last : error)
    (ctx : context) (f : context -> Transaction -> error) : error :=
  match script with
  | [] => last
  | a :: rest =>
      match begin_err a with
      | nil_error =>
          match f ctx (transaction_of_attempt n) with
          | nil_error =>
              if codes.eqb (status.Code (commit_err a)) codes.Aborted
              then run_attempts rest (S n) (commit_err a) ctx f
              else commit_err a
          | e => e
          end
      | e => e
      end
  end.

(** A client whose store behaves as [script] says. *)
Definition scripted_client (script : list attempt) : firestore_Client :=
  {| Client_RunTransaction := run_attempts script 0 nil_error |}.

(** [http.ResponseWriter], by the header map it carries. *)
Record ResponseWriter : Type := { ResponseWriter_Header : http_Header }.

(** The struct [Context]; the embedded [context.Context] is the last
    field. *)
Record Context : Type := {
  resp : ResponseWriter;
  req : Request;
  client : firestore_Client;
  Context_Context : context
}.

Definition HTTPRequest (c : Context) : Request := req c.
Definition HTTPResponseWriter (c : Context) : ResponseWriter := resp c.
Definition FirestoreClient (c : Context) : firestore_Client := client c.

Definition ValidateRequestMethod (c : Context) (method err : string)
  : StatusError :=
  let m := Method (HTTPRequest c) in
  if negb (String.eqb m method) then NewMethodNotAllowedError m
  else None.

(** The error that the store hands back to [RunTransaction]; the callback
    is converted from [StatusError] to [error] by the closure. *)
Definition transaction_error (ctx : context) (c : firestore_Client)
    (f : context -> Transaction -> StatusError) : error :=
  Client_RunTransaction c ctx (fun ctx txn => as_error (f ctx txn)).

Definition RunTransaction (ctx : context) (c : firestore_Client)
    (f : context -> Transaction -> StatusError) : StatusError :=
  let err := transaction_error ctx c f in
  match err with
  | nil_error => None
  | statusErr se => Some se
  | _ => NewInternalServerError err
  end.

(** The method [Context.RunTransaction]. *)
Definition Context_RunTransaction (c : Context)
    (f : context -> Transaction -> StatusError) : StatusError :=
  RunTransaction (Context_Context c) (FirestoreClient c) f.




(** * Notions used to state the properties *)

(** ** Status classes *)

(** The four status classes of the taxonomy. *)
Definition taxonomy : list Z :=
  [http.StatusBadRequest; http.StatusMethodNotAllowed;
   http.StatusNotImplemented; http.StatusInternalServerError].

(** [e] is an error, and its status code is one of the four classes. *)
Definition in_taxonomy (e : StatusError) : Prop :=
  exists se, e = Some se /\ In (HTTPStatusCode se) taxonomy.

(** ** Malformed input *)

(** The types of [encoding/json] that the type switch of
    [JSONToStatusError] lists. *)
Definition json_bad_request (t : json.ErrorType) : bool :=
  match t with
  | json.MarshalerError | json.SyntaxError | json.UnmarshalFieldError
  | json.UnmarshalTypeError | json.UnsupportedTypeError
  | json.UnsupportedValueError => true
  | json.InvalidUnmarshalError | json.InvalidUTF8Error => false
  end.

(** The errors that stand for malformed input: an error of one of the six
    listed JSON types, [io.EOF] or [io.ErrUnexpectedEOF]. *)
Definition malformed_input (err : error) : Prop :=
  (exists t msg, err = jsonError t msg /\ json_bad_request t = true)
  \/ err = io_EOF \/ err = io_ErrUnexpectedEOF.

(** ** Attempts of a transaction *)

(** The store reaches attempt [length before] when every earlier attempt
    began, ran the callback without error and was aborted at commit. *)
Definition retried (before : list attempt) (ctx : context)
    (g : context -> Transaction -> error) (n : nat) : Prop :=
  Forall (fun a => begin_err a = nil_error
                   /\ status.Code (commit_err a) = codes.Aborted) before
  /\ forall i, (i < length before)%nat ->
               g ctx (transaction_of_attempt (n + i)) = nil_error.

(** ** Occurrences of "proto=http" in a header value *)







(** ** The parameters of a [Forwarded] header (RFC 7239) *)

Definition is_separator (c : ascii) : bool :=
  Ascii.eqb c ";" || Ascii.eqb c ",".

(** The texts between the separators [;] and [,]. *)
Fixpoint parameters (s : string) : list string :=
  match s with
  | EmptyString => [EmptyString]
  | String c rest =>
      if is_separator c then EmptyString :: parameters rest
      else
        match parameters rest with
        | p :: ps => String c p :: ps
        | [] => [String c EmptyString]
        end
  end.

Fixpoint trim_left (s : string) : string :=
  match s with
  | String " " rest => trim_left rest
  | _ => s
  end.

Fixpoint trim_right (s : string) : string :=
  match s with
  | EmptyString => EmptyString
  | String c rest =>
      match trim_right rest with
      | EmptyString => if Ascii.eqb c " " then EmptyString
                       else String c EmptyString
      | r => String c r
      end
  end.

(** The header value has a parameter [proto=https], up to case. *)
Definition has_proto_https_parameter (s : string) : bool :=
  existsb
    (fun p => String.eqb (strings.ToLower (trim_left (trim_right p)))
                "proto=https")
    (parameters s).


(** ** The first protocol parameter of a [Forwarded] header *)







(** ** Sample values *)

(** A context with a fake clock under a foreign value and a test store. *)
Definition sample_context : context :=
  WithTestFirestore
    (WithValue (WithFakeClock Background 1500000000%Z)
       (foreignKey "trace") (any_other "span"))
    (Some {| projectID := "test" |}).

Definition request_with (method : string) (h : http_Header) : Request :=
  {| Method := method; Header := h; Request_Context := Background |}.

(** A request without any header. *)
Definition bare_request : Request := request_with "GET" ∅.

(** A request whose [Forwarded] header names [http] first and [https]
    second. *)
Definition downgraded_request : Request :=
  request_with "GET" {[ "Forwarded" := ["proto=http;proto=https"] ]}.

(** A request forwarded over HTTPS according to [Forwarded]. *)
Definition forwarded_request : Request :=
  request_with "GET" {[ "Forwarded" := ["for=10.0.0.1;Proto=HTTPS"] ]}.

(** A store that is unavailable at commit. *)
Definition unavailable_store : firestore_Client :=
  scripted_client
    [{| begin_err := nil_error;
        commit_err := grpcStatusError codes.Unavailable "connection refused" |}].

(** A store that aborts the first commit and accepts the second. *)
Definition contended_store : list attempt :=
  [{| begin_err := nil_error;
      commit_err := grpcStatusError codes.Aborted "contention" |};
   {| begin_err := nil_error; commit_err := nil_error |}].

(** A callback without objection, and one that rejects the request from the
    second attempt on. *)
Definition accept_all (ctx : context) (txn : Transaction) : StatusError :=
  None.

Definition reject_retry (ctx : context) (txn : Transaction) : StatusError :=
  match txn with
  | transaction_of_attempt 0 => None
  | transaction_of_attempt (S _) => NotFoundError
  end.

(** A request context for [POST /report] without headers. *)
Definition sample_post : Context :=
  {| resp := {| ResponseWriter_Header := ∅ |};
     req := request_with "POST" ∅;
     client := unavailable_store;
     Context_Context := Background |}.

(** * Further notions: causes, wrappers and the construction of a context *)

(** ** Causes *)

(** The error at the bottom of a chain of [statusError] wrappers. *)
Fixpoint root_cause (e : error) : error :=
  match e with
  | statusErr (Build_statusError _ _ x) => root_cause x
  | _ => e
  end.

(** Induction on an error and on the [statusError] values inside it. *)
Scheme error_mut := Induction for error Sort Prop
  with statusError_mut := Induction for statusError Sort Prop.

(** ** Building contexts step by step *)

(** One step of building a context. *)
Inductive wrapper : Type :=
| wrap_clock (t : Duration)
| wrap_store (store : option TestFirestore)
| wrap_foreign (name : string) (val : any).

Definition apply_wrapper (w : wrapper) (ctx : context) : context :=
  match w with
  | wrap_clock t => WithFakeClock ctx t
  | wrap_store store => WithTestFirestore ctx store
  | wrap_foreign name val => WithValue ctx (foreignKey name) val
  end.

(** The wrappers of [ws] around [ctx]; the head of the list is applied
    last. *)
Fixpoint apply_wrappers (ws : list wrapper) (ctx : context) : context :=
  match ws with
  | [] => ctx
  | w :: rest => apply_wrapper w (apply_wrappers rest ctx)
  end.

(** The fake clock and the test store that were attached last. *)
Fixpoint last_clock (ws : list wrapper) : option Duration :=
  match ws with
  | [] => None
  | wrap_clock t :: _ => Some t
  | _ :: rest => last_clock rest
  end.

Fixpoint last_store (ws : list wrapper) : option (option TestFirestore) :=
  match ws with
  | [] => None
  | wrap_store store :: _ => Some store
  | _ :: rest => last_store rest
  end.

(** ** Construction of the request context *)

(** [option.ClientOption] of [google.golang.org/api/option]; this package
    only passes such values on. *)
Inductive ClientOption : Type :=
| client_option (descr : string).

Module firestore.
(** The project identifier that makes [firestore.NewClient] read the project
    from the environment. *)
Definition DetectProjectID : string := "*detect-project-id*".
End firestore.

(** What [NewContext] calls outside this file: [os.Getenv], the method
    [clientOption] of [*TestFirestore] (called on a pointer that may be nil;
    it may panic) and [firestore.NewClient]. *)
Record Platform : Type := {
  os_Getenv : string -> string;
  TestFirestore_clientOption :
    option TestFirestore -> outcome (ClientOption * error);
  firestore_NewClient :
    context -> string -> list ClientOption -> firestore_Client * error
}.

Definition is_any_nil (v : any) : bool :=
  match v with any_nil => true | _ => false end.

(** [NewContext].  The result [(Context{}, err)] is [inr err], the result
    [(c, nil)] is [inl c].  Reading [store.projectID] through a nil pointer
    panics. *)
Definition NewContext (p : Platform) (w : ResponseWriter) (r : Request)
  : outcome (Context + StatusError) :=
  let ctx := Request_Context r in
  let testFirestore := Value ctx testFirestoreContextKey in
  let connect (project : string) (clientOptions : list ClientOption)
    : outcome (Context + StatusError) :=
    match firestore_NewClient p ctx project clientOptions with
    | (c, nil_error) =>
        Returns (inl {| resp := w; req := r; client := c;
                        Context_Context := ctx |})
    | (_, err) => Returns (inr (NewInternalServerError err))
    end in
  if negb (String.eqb (os_Getenv p "FIRESTORE_EMULATOR_HOST") "")
     || negb (is_any_nil testFirestore)
  then
    match testFirestore with
    | any_TestFirestore store =>
        match TestFirestore_clientOption p store with
        | Panics reason => Panics reason
        | Returns (opt, nil_error) =>
            match store with
            | Some s => connect (projectID s) [opt]
            | None =>
                Panics "invalid memory address or nil pointer dereference"
            end
        | Returns (_, err) => Returns (inr (NewInternalServerError err))
        end
    | _ => connect "test" []
    end
  else connect firestore.DetectProjectID [].

(** The result of [NewContext] once the project and the options are
    chosen: what [firestore.NewClient] makes of them. *)
Definition connected (p : Platform) (w : ResponseWriter) (r : Request)
    (project : string) (clientOptions : list ClientOption)
  : outcome (Context + StatusError) :=
  match firestore_NewClient p (Request_Context r) project clientOptions with
  | (c, nil_error) =>
      Returns (inl {| resp := w; req := r; client := c;
                      Context_Context := Request_Context r |})
  | (_, err) => Returns (inr (NewInternalServerError err))
  end.


(** ** Further sample values *)

(** A platform with the emulator variable set, whose test store gives an
    option and whose client constructor fails for the project "down". *)
Definition sample_platform : Platform :=
  {| os_Getenv := fun name =>
       if String.eqb name "FIRESTORE_EMULATOR_HOST" then "localhost:8081"
       else "";
     TestFirestore_clientOption := fun store =>
       match store with
       | Some s => Returns (client_option "grpc connection", nil_error)
       | None => Panics "invalid memory address or nil pointer dereference"
       end;
     firestore_NewClient := fun ctx project opts =>
       if String.eqb project "down"
       then (scripted_client [], errors_New "dial failed")
       else (scripted_client [], nil_error) |}.

(** A production platform: no emulator variable. *)
Definition production_platform : Platform :=
  {| os_Getenv := fun name => "";
     TestFirestore_clientOption := TestFirestore_clientOption sample_platform;
     firestore_NewClient := firestore_NewClient sample_platform |}.

Definition empty_writer : ResponseWriter :=
  {| ResponseWriter_Header := ∅ |}.

(** A request whose context carries the test store of project [project]. *)
Definition request_with_store (project : string) : Request :=
  {| Method := "GET"; Header := ∅;
     Request_Context :=
       WithFakeClock
         (WithTestFirestore Background (Some {| projectID := project |}))
         1500000000%Z |}.

(** A request whose context carries a nil test store. *)
Definition request_with_nil_store : Request :=
  {| Method := "GET"; Header := ∅;
     Request_Context := WithTestFirestore Background None |}.

(** * Properties *)

(** ** The status classes *)

Lemma in_taxonomy_intro c m x :
  In c taxonomy -> in_taxonomy (Some (Build_statusError c m x)).
Proof. intros H. exists (Build_statusError c m x). split; [reflexivity | exact H]. Qed.

Lemma NewBadRequestError_in_taxonomy err :
  in_taxonomy (NewBadRequestError err).
Proof. apply in_taxonomy_intro. simpl. tauto. Qed.

Lemma NewInternalServerError_in_taxonomy err :
  in_taxonomy (NewInternalServerError err).
Proof. apply in_taxonomy_intro. simpl. tauto. Qed.

Lemma NewMethodNotAllowedError_in_taxonomy method :
  in_taxonomy (NewMethodNotAllowedError method).
Proof. apply in_taxonomy_intro. simpl. tauto. Qed.

Lemma NewNotImplementedError_in_taxonomy :
  in_taxonomy NewNotImplementedError.
Proof. apply in_taxonomy_intro. simpl. tauto. Qed.

(** ** Messages *)

Lemma Message_of_message c m x :
  m <> "" -> Message (Build_statusError c m x) = Returns m.
Proof.
  intros H. unfold Message. simpl.
  destruct (String.eqb m "") eqn:E; [|reflexivity].
  apply String.eqb_eq in E. contradiction.
Qed.

Lemma Message_of_embedded c x :
  Message (Build_statusError c "" x) = Error x.
Proof. reflexivity. Qed.

(** C2: whatever error is wrapped, the message of
    [NewInternalServerError err] is the fixed text "internal server error";
    the messages of two such errors are equal, so nothing of the cause is
    in the message. *)
Theorem NewInternalServerError_message_generic :
  forall err : error,
    option_map Message (NewInternalServerError err)
      = Some (Returns "internal server error")
    /\ forall err' : error,
         option_map Message (NewInternalServerError err')
         = option_map Message (NewInternalServerError err).
Proof.
  intros err. split; [reflexivity | intros err'; reflexivity].
Qed.

(** ** The injectable clock *)

Lemma Value_WithFakeClock ctx t :
  Value (WithFakeClock ctx t) fakeClockKey = any_Duration t.
Proof. reflexivity. Qed.

Lemma Value_WithTestFirestore ctx store :
  Value (WithTestFirestore ctx store) fakeClockKey = Value ctx fakeClockKey.
Proof. reflexivity. Qed.

Lemma Value_foreign ctx name val :
  Value (WithValue ctx (foreignKey name) val) fakeClockKey
  = Value ctx fakeClockKey.
Proof. reflexivity. Qed.

(** C5: with a fake clock attached, [Now] returns [time.Unix(0, int64(t))]
    whatever the system clock reads, so two calls agree; with no value under
    the fake-clock key, [Now] returns the reading of the system clock. *)
Theorem Now_injectable_clock :
  forall (time_Now : Time) (ctx : context) (t : Duration),
    Now time_Now (WithFakeClock ctx t) = Returns (time_Unix 0 (int64 t))
    /\ (forall time_Now' : Time,
          Now time_Now' (WithFakeClock ctx t)
          = Now time_Now (WithFakeClock ctx t))
    /\ (Value ctx fakeClockKey = any_nil ->
        Now time_Now ctx = Returns time_Now).
Proof.
  intros time_Now ctx t. repeat split.
  intros H. unfold Now. rewrite H. reflexivity.
Qed.

Lemma Now_injectable_clock_witness :
  Value (WithTestFirestore Background None) fakeClockKey = any_nil
  /\ Now (unixTime 7 0) (WithTestFirestore Background None)
     = Returns (unixTime 7 0).
Proof.
  split; [reflexivity |].
  apply (Now_injectable_clock (unixTime 7 0)
           (WithTestFirestore Background None) 0%Z).
  reflexivity.
Defined.

Lemma constructible_fakeClock ctx :
  constructible ctx ->
  Value ctx fakeClockKey = any_nil
  \/ exists t, Value ctx fakeClockKey = any_Duration t.
Proof.
  induction 1 as [| parent name val _ IH | parent t _ _ | parent store _ IH].
  - left. reflexivity.
  - rewrite Value_foreign. exact IH.
  - right. exists t. apply Value_WithFakeClock.
  - rewrite Value_WithTestFirestore. exact IH.
Qed.

(** C9: in every context built from [context.Background] by the wrappers of
    this package (and by values stored under keys of other packages), the
    value under [fakeClockKey] is nil or a [*time.Duration], and [Now]
    returns a time: its panic is not reached. *)
Theorem Now_never_panics :
  forall ctx : context,
    constructible ctx ->
    (Value ctx fakeClockKey = any_nil
     \/ exists t, Value ctx fakeClockKey = any_Duration t)
    /\ forall time_Now : Time, exists t, Now time_Now ctx = Returns t.
Proof.
  intros ctx Hc. pose proof (constructible_fakeClock ctx Hc) as Hv.
  split; [exact Hv |].
  intros time_Now. unfold Now.
  destruct Hv as [Hv | [d Hv]]; rewrite Hv; eauto.
Qed.

Lemma Now_never_panics_witness :
  constructible sample_context
  /\ exists t, Now (unixTime 7 0) sample_context = Returns t.
Proof.
  assert (H : constructible sample_context).
  { apply constructible_WithTestFirestore, constructible_foreign,
      constructible_WithFakeClock, constructible_Background. }
  split; [exact H |].
  exact (proj2 (Now_never_panics sample_context H) (unixTime 7 0)).
Defined.

(** ** Request methods *)

(** C6: [ValidateRequestMethod] returns nil exactly when the method of the
    request is the expected one; otherwise it returns an error of class 405
    whose message is "unsupported method: " followed by the method of the
    request.  The second string argument plays no part. *)
Theorem ValidateRequestMethod_spec :
  forall (c : Context) (method errMsg : string),
    (ValidateRequestMethod c method errMsg = None
     <-> Method (HTTPRequest c) = method)
    /\ (Method (HTTPRequest c) <> method ->
        exists se,
          ValidateRequestMethod c method errMsg = Some se
          /\ HTTPStatusCode se = http.StatusMethodNotAllowed
          /\ Message se
             = Returns ("unsupported method: " ++ Method (HTTPRequest c))).
Proof.
  intros c method errMsg. unfold ValidateRequestMethod.
  destruct (String.eqb (Method (HTTPRequest c)) method) eqn:E; simpl.
  - apply String.eqb_eq in E. split; [tauto | contradiction].
  - apply String.eqb_neq in E. split.
    + split; [discriminate | contradiction].
    + intros _. eexists. split; [reflexivity |]. split; reflexivity.
Qed.

Lemma ValidateRequestMethod_spec_witness :
  Method (HTTPRequest sample_post) <> "GET"
  /\ exists se,
       ValidateRequestMethod sample_post "GET" "" = Some se
       /\ HTTPStatusCode se = http.StatusMethodNotAllowed
       /\ Message se = Returns "unsupported method: POST".
Proof.
  assert (H : Method (HTTPRequest sample_post) <> "GET") by discriminate.
  split; [exact H |].
  exact (proj2 (ValidateRequestMethod_spec sample_post "GET" "") H).
Defined.

(** ** Conversion of store and JSON errors *)

Lemma codes_eqb_eq a b : codes.eqb a b = true <-> a = b.
Proof. destruct a, b; simpl; split; intros H; congruence. Qed.

Lemma NotFoundError_message :
  exists se,
    NotFoundError = Some se
    /\ HTTPStatusCode se = http.StatusBadRequest
    /\ Message se = Returns "not found".
Proof. eexists. repeat split. Qed.

(** C7: an error that is already a [StatusError] is returned as it is; an
    error that is not one and whose gRPC code is [NotFound] becomes
    [NotFoundError], of class 400 with the message "not found"; every other
    error becomes an internal server error of class 500. *)
Theorem FirestoreToStatusError_spec :
  forall err : error,
    (forall se, err = statusErr se -> FirestoreToStatusError err = Some se)
    /\ (assert_StatusError err = None ->
        status.Code err = codes.NotFound ->
        FirestoreToStatusError err = NotFoundError
        /\ exists se,
             FirestoreToStatusError err = Some se
             /\ HTTPStatusCode se = http.StatusBadRequest
             /\ Message se = Returns "not found")
    /\ (assert_StatusError err = None ->
        status.Code err <> codes.NotFound ->
        FirestoreToStatusError err = NewInternalServerError err
        /\ exists se,
             FirestoreToStatusError err = Some se
             /\ HTTPStatusCode se = http.StatusInternalServerError).
Proof.
  intros err. unfold FirestoreToStatusError. repeat split.
  - intros se ->. reflexivity.
  - rewrite H, H0. reflexivity.
  - rewrite H, H0. simpl. apply NotFoundError_message.
  - rewrite H.
    destruct (codes.eqb (status.Code err) codes.NotFound) eqn:E;
      [apply codes_eqb_eq in E; contradiction | reflexivity].
  - rewrite H.
    destruct (codes.eqb (status.Code err) codes.NotFound) eqn:E;
      [apply codes_eqb_eq in E; contradiction |].
    eexists. split; reflexivity.
Qed.

Lemma FirestoreToStatusError_spec_witness :
  (assert_StatusError (grpcStatusError codes.NotFound "no document") = None
   /\ status.Code (grpcStatusError codes.NotFound "no document")
      = codes.NotFound
   /\ FirestoreToStatusError (grpcStatusError codes.NotFound "no document")
      = NotFoundError)
  /\ (assert_StatusError (grpcStatusError codes.Unavailable "down") = None
      /\ status.Code (grpcStatusError codes.Unavailable "down")
         <> codes.NotFound
      /\ FirestoreToStatusError (grpcStatusError codes.Unavailable "down")
         = NewInternalServerError (grpcStatusError codes.Unavailable "down"))
  /\ FirestoreToStatusError
       (statusErr (newStatusError http.StatusTeapot (errors_New "teapot")))
     = Some (newStatusError http.StatusTeapot (errors_New "teapot")).
Proof.
  assert (H : status.Code (grpcStatusError codes.Unavailable "down")
              <> codes.NotFound) by discriminate.
  split; [| split].
  - split; [reflexivity |]. split; [reflexivity |].
    exact (proj1 (proj1 (proj2 (FirestoreToStatusError_spec
                                  (grpcStatusError codes.NotFound
                                     "no document")))
                    eq_refl eq_refl)).
  - split; [reflexivity |]. split; [exact H |].
    exact (proj1 (proj2 (proj2 (FirestoreToStatusError_spec
                                  (grpcStatusError codes.Unavailable "down")))
                    eq_refl H)).
  - exact (proj1 (FirestoreToStatusError_spec
                    (statusErr (newStatusError http.StatusTeapot
                                  (errors_New "teapot"))))
             _ eq_refl).
Defined.

(** C8: an error of one of the six listed [encoding/json] types, [io.EOF]
    and [io.ErrUnexpectedEOF] become errors of class 400 whose message is
    the message of the error itself; every other error that is not a
    [StatusError] becomes an internal server error of class 500. *)
Theorem JSONToStatusError_spec :
  forall err : error,
    (malformed_input err ->
     JSONToStatusError err = NewBadRequestError err
     /\ exists se,
          JSONToStatusError err = Some se
          /\ HTTPStatusCode se = http.StatusBadRequest
          /\ Message se = Error err
          /\ exists text, Error err = Returns text)
    /\ (assert_StatusError err = None ->
        ~ malformed_input err ->
        JSONToStatusError err = NewInternalServerError err
        /\ exists se,
             JSONToStatusError err = Some se
             /\ HTTPStatusCode se = http.StatusInternalServerError).
Proof.
  intros err. split.
  - intros [(t & msg & -> & Ht) | [-> | ->]].
    + destruct t; try discriminate Ht;
        (split; [reflexivity |]; eexists; repeat split; eexists; reflexivity).
    + split; [reflexivity |]. eexists; repeat split. eexists; reflexivity.
    + split; [reflexivity |]. eexists; repeat split. eexists; reflexivity.
  - intros Hs Hn.
    assert (E : JSONToStatusError err = NewInternalServerError err).
    { destruct err as [| s | | | t msg | c d | ty msg | se];
        try reflexivity; try discriminate Hs.
      - exfalso. apply Hn. right. left. reflexivity.
      - exfalso. apply Hn. right. right. reflexivity.
      - destruct t; try reflexivity;
          exfalso; apply Hn; left; eexists; eexists; split; reflexivity. }
    split; [exact E |]. rewrite E. eexists. split; reflexivity.
Qed.

Lemma JSONToStatusError_spec_witness :
  (malformed_input (jsonError json.SyntaxError "unexpected end of JSON input")
   /\ JSONToStatusError
        (jsonError json.SyntaxError "unexpected end of JSON input")
      = NewBadRequestError
          (jsonError json.SyntaxError "unexpected end of JSON input"))
  /\ (assert_StatusError (errors_New "disk full") = None
      /\ ~ malformed_input (errors_New "disk full")
      /\ JSONToStatusError (errors_New "disk full")
         = NewInternalServerError (errors_New "disk full")).
Proof.
  assert (H : malformed_input
                (jsonError json.SyntaxError "unexpected end of JSON input")).
  { left. eexists. eexists. split; reflexivity. }
  assert (N : ~ malformed_input (errors_New "disk full")).
  { intros [(t & msg & E & _) | [E | E]]; discriminate E. }
  split.
  - split; [exact H |].
    exact (proj1 (proj1 (JSONToStatusError_spec
                           (jsonError json.SyntaxError
                              "unexpected end of JSON input")) H)).
  - split; [reflexivity |]. split; [exact N |].
    exact (proj1 (proj2 (JSONToStatusError_spec (errors_New "disk full"))
                    eq_refl N)).
Defined.

(** The two remaining error types of [encoding/json] are not in the type
    switch: they are classified as internal. *)
Lemma JSONToStatusError_unlisted msg :
  JSONToStatusError (jsonError json.InvalidUnmarshalError msg)
  = NewInternalServerError (jsonError json.InvalidUnmarshalError msg)
  /\ JSONToStatusError (jsonError json.InvalidUTF8Error msg)
     = NewInternalServerError (jsonError json.InvalidUTF8Error msg).
Proof. split; reflexivity. Qed.

Lemma JSONToStatusError_StatusError se :
  JSONToStatusError (statusErr se) = Some se.
Proof. reflexivity. Qed.

(** ** Transactions *)

Lemma RunTransaction_cases ctx c f :
  match transaction_error ctx c f with
  | nil_error => RunTransaction ctx c f = None
  | statusErr se => RunTransaction ctx c f = Some se
  | err => RunTransaction ctx c f = NewInternalServerError err
  end.
Proof.
  unfold RunTransaction.
  destruct (transaction_error ctx c f); reflexivity.
Qed.

Lemma run_attempts_callback_error before :
  forall n last ctx g a rest e,
    retried before ctx g n ->
    begin_err a = nil_error ->
    g ctx (transaction_of_attempt (n + length before)) = e ->
    e <> nil_error ->
    run_attempts (before ++ a :: rest) n last ctx g = e.
Proof.
  induction before as [| b before IH];
    intros n last ctx g a rest e [Hall Hg] Hb He Hne; simpl in *.
  - rewrite Hb. rewrite Nat.add_0_r in He. rewrite He.
    destruct e; congruence.
  - inversion Hall as [| ? ? [Hbb Hbc] Hall']; subst.
    rewrite Hbb.
    pose proof (Hg 0%nat ltac:(lia)) as H0. rewrite Nat.add_0_r in H0.
    rewrite H0, Hbc. simpl.
    apply IH; [split; [exact Hall' |] | exact Hb | | exact Hne].
    + intros i Hi. replace (S n + i)%nat with (n + S i)%nat by lia.
      apply Hg. lia.
    + replace (S n + length before)%nat with (n + S (length before))%nat
        by lia.
      reflexivity.
Qed.

(** C3: [RunTransaction] returns nil exactly when the transaction of the
    store returns nil; a [StatusError] coming out of the transaction is
    returned as it is; any other error is wrapped as an internal server
    error of class 500 that keeps it as its cause.  With a store that
    follows the documented contract of [Client.RunTransaction], the
    [StatusError] that the callback returns in the attempt that the store
    reaches is the result. *)
Theorem RunTransaction_spec :
  forall (ctx : context) (c : firestore_Client)
         (f : context -> Transaction -> StatusError),
    (RunTransaction ctx c f = None <-> transaction_error ctx c f = nil_error)
    /\ (forall se, transaction_error ctx c f = statusErr se ->
                   RunTransaction ctx c f = Some se)
    /\ (transaction_error ctx c f <> nil_error ->
        assert_StatusError (transaction_error ctx c f) = None ->
        RunTransaction ctx c f
        = Some (Build_statusError http.StatusInternalServerError
                  "internal server error" (transaction_error ctx c f)))
    /\ (forall before a rest se,
          retried before ctx (fun ctx txn => as_error (f ctx txn)) 0 ->
          begin_err a = nil_error ->
          f ctx (transaction_of_attempt (length before)) = Some se ->
          RunTransaction ctx (scripted_client (before ++ a :: rest)) f
          = Some se).
Proof.
  intros ctx c f.
  pose proof (RunTransaction_cases ctx c f) as H.
  split; [| split; [| split]].
  - destruct (transaction_error ctx c f); rewrite H;
      split; intros E; try reflexivity; discriminate E.
  - intros se E. rewrite E in H. exact H.
  - intros Hn Hs.
    destruct (transaction_error ctx c f); try exact H;
      [contradiction | discriminate Hs].
  - intros before a rest se Hr Hb Hf.
    pose proof (RunTransaction_cases ctx
                  (scripted_client (before ++ a :: rest)) f) as H'.
    assert (E : transaction_error ctx
                  (scripted_client (before ++ a :: rest)) f = statusErr se).
    { unfold transaction_error, scripted_client. simpl.
      apply run_attempts_callback_error; try assumption.
      - simpl. rewrite Hf. reflexivity.
      - discriminate. }
    rewrite E in H'. exact H'.
Qed.

Lemma RunTransaction_spec_witness :
  (transaction_error Background unavailable_store accept_all <> nil_error
   /\ assert_StatusError
        (transaction_error Background unavailable_store accept_all) = None
   /\ RunTransaction Background unavailable_store accept_all
      = Some (Build_statusError http.StatusInternalServerError
                "internal server error"
                (grpcStatusError codes.Unavailable "connection refused")))
  /\ (retried [{| begin_err := nil_error;
                  commit_err := grpcStatusError codes.Aborted "contention" |}]
        Background (fun ctx txn => as_error (reject_retry ctx txn)) 0
      /\ RunTransaction Background (scripted_client contended_store)
           reject_retry
         = NotFoundError).
Proof.
  assert (H1 : transaction_error Background unavailable_store accept_all
               <> nil_error) by discriminate.
  assert (H2 : assert_StatusError
                 (transaction_error Background unavailable_store accept_all)
               = None) by reflexivity.
  assert (H3 : retried
                 [{| begin_err := nil_error;
                     commit_err := grpcStatusError codes.Aborted "contention" |}]
                 Background (fun ctx txn => as_error (reject_retry ctx txn))
                 0).
  { split.
    - constructor; [split; reflexivity | constructor].
    - intros i Hi. simpl in Hi. assert (i = 0%nat) as -> by lia. reflexivity. }
  split.
  - split; [exact H1 |]. split; [exact H2 |].
    exact (proj1 (proj2 (proj2 (RunTransaction_spec Background
                                  unavailable_store accept_all))) H1 H2).
  - split; [exact H3 |].
    exact (proj2 (proj2 (proj2 (RunTransaction_spec Background
                                  unavailable_store reject_retry)))
             _ {| begin_err := nil_error; commit_err := nil_error |} []
             _ H3 eq_refl eq_refl).
Defined.

(** ** Strings and matches *)



























(** ** The forwarded-protocol check *)

Lemma FindStringSubmatch_length r s :
  regexp.FindStringSubmatch r s = []
  \/ length (regexp.FindStringSubmatch r s) = S (regexp.NumSubexp r).
Proof.
  unfold regexp.FindStringSubmatch.
  destruct (regexp.search r s 0) as [[[start stop] cs] |];
    [right | left; reflexivity].
  cbn [length]. rewrite length_map, length_seq. reflexivity.
Qed.

Lemma FindStringSubmatch_protoRegex_length s :
  length (regexp.FindStringSubmatch protoRegex s) = 0%nat
  \/ length (regexp.FindStringSubmatch protoRegex s) = 2%nat.
Proof.
  destruct (FindStringSubmatch_length protoRegex s) as [-> | ->];
    [left | right]; reflexivity.
Qed.

(** The first part of [checkHTTPS] never takes its early return. *)
Lemma forwarded_scheme_inl r :
  exists scheme, forwarded_scheme r = inl scheme.
Proof.
  unfold forwarded_scheme.
  destruct (negb (String.eqb (Header_Get (Header r) xForwardedProto) ""));
    [eexists; reflexivity |].
  destruct (negb (String.eqb (Header_Get (Header r) forwarded) ""));
    [| eexists; reflexivity].
  destruct (FindStringSubmatch_protoRegex_length
              (Header_Get (Header r) forwarded)) as [-> | ->];
    eexists; reflexivity.
Qed.

(** [checkHTTPS] accepts the request or answers 418. *)
Lemma checkHTTPS_teapot r :
  checkHTTPS r = None
  \/ checkHTTPS r
     = Some (newStatusError http.StatusTeapot
               (errors_New
                  "unsupported protocol HTTP; only HTTPS is supported")).
Proof.
  unfold checkHTTPS. destruct (forwarded_scheme_inl r) as [scheme ->].
  destruct (negb (String.eqb scheme "https")); [right | left]; reflexivity.
Qed.

Lemma checkHTTPS_scheme r scheme :
  forwarded_scheme r = inl scheme ->
  (checkHTTPS r = None <-> scheme = "https").
Proof.
  intros H. unfold checkHTTPS. rewrite H.
  destruct (String.eqb scheme "https") eqn:E; simpl.
  - apply String.eqb_eq in E. tauto.
  - apply String.eqb_neq in E. split; [discriminate | contradiction].
Qed.



(** C10: [protoRegex] has one capturing group, so [FindStringSubmatch]
    returns nil or a slice of two elements for every input; the first part
    of [checkHTTPS] never takes the early return, and [checkHTTPS] never
    returns the internal server error "Header 'forward' has more than 2
    elements". *)
Theorem more_than_two_elements_unreachable :
  regexp.NumSubexp protoRegex = 1%nat
  /\ (forall s : string,
        regexp.FindStringSubmatch protoRegex s = []
        \/ length (regexp.FindStringSubmatch protoRegex s) = 2%nat)
  /\ (forall r : Request, exists scheme, forwarded_scheme r = inl scheme)
  /\ (forall r : Request,
        checkHTTPS r
        <> NewInternalServerError
             (errors_New "Header 'forward' has more than 2 elements")).
Proof.
  split; [reflexivity |]. split; [| split].
  - intros s. apply (FindStringSubmatch_length protoRegex s).
  - apply forwarded_scheme_inl.
  - intros r. destruct (checkHTTPS_teapot r) as [-> | ->]; discriminate.
Qed.


















(** The status code of [checkHTTPS] for a request without headers is none
    of the four classes. *)
Lemma checkHTTPS_outside_taxonomy :
  checkHTTPS bare_request <> None
  /\ ~ in_taxonomy (checkHTTPS bare_request).
Proof.
  split; [discriminate |].
  intros (se & E & Hin). vm_compute in E. injection E as <-.
  simpl in Hin. unfold http.StatusBadRequest, http.StatusMethodNotAllowed,
    http.StatusNotImplemented, http.StatusInternalServerError in Hin.
  repeat destruct Hin as [Hin | Hin]; try discriminate Hin. exact Hin.
Qed.

(** C1, as the code has it: the four constructors give errors of the four
    classes 400, 405, 501 and 500, and so do [FirestoreToStatusError] and
    [JSONToStatusError] for an error that is not a [StatusError] already
    (which they return as it is); [checkHTTPS] is outside the four classes:
    the error it returns has status 418. *)
Theorem status_classes :
  forall (err : error) (method : string) (r : Request),
    in_taxonomy (NewBadRequestError err)
    /\ in_taxonomy (NewMethodNotAllowedError method)
    /\ in_taxonomy NewNotImplementedError
    /\ in_taxonomy (NewInternalServerError err)
    /\ (assert_StatusError err = None ->
        in_taxonomy (FirestoreToStatusError err)
        /\ in_taxonomy (JSONToStatusError err))
    /\ (forall se, err = statusErr se ->
                   FirestoreToStatusError err = Some se
                   /\ JSONToStatusError err = Some se)
    /\ (checkHTTPS r = None
        \/ exists se, checkHTTPS r = Some se
                      /\ HTTPStatusCode se = http.StatusTeapot
                      /\ ~ In (HTTPStatusCode se) taxonomy).
Proof.
  intros err method r.
  split; [apply NewBadRequestError_in_taxonomy |].
  split; [apply NewMethodNotAllowedError_in_taxonomy |].
  split; [apply NewNotImplementedError_in_taxonomy |].
  split; [apply NewInternalServerError_in_taxonomy |].
  split; [| split].
  - intros Hs. split.
    + unfold FirestoreToStatusError. rewrite Hs.
      destruct (codes.eqb (status.Code err) codes.NotFound);
        [apply NewBadRequestError_in_taxonomy
        | apply NewInternalServerError_in_taxonomy].
    + destruct err as [| s | | | t msg | c d | ty msg | se];
        try discriminate Hs;
        try apply NewInternalServerError_in_taxonomy;
        try apply NewBadRequestError_in_taxonomy.
      destruct t; first [apply NewBadRequestError_in_taxonomy
                        | apply NewInternalServerError_in_taxonomy].
  - intros se ->. split; reflexivity.
  - destruct (checkHTTPS_teapot r) as [H | H]; [left; exact H | right].
    eexists. split; [exact H |]. split; [reflexivity |].
    simpl. unfold http.StatusTeapot, http.StatusBadRequest,
      http.StatusMethodNotAllowed, http.StatusNotImplemented,
      http.StatusInternalServerError.
    intros Hin. repeat destruct Hin as [Hin | Hin]; try discriminate Hin.
    exact Hin.
Qed.

Lemma status_classes_witness :
  (assert_StatusError io_EOF = None
   /\ in_taxonomy (FirestoreToStatusError io_EOF)
   /\ in_taxonomy (JSONToStatusError io_EOF))
  /\ JSONToStatusError
       (statusErr (newStatusError http.StatusTeapot (errors_New "teapot")))
     = Some (newStatusError http.StatusTeapot (errors_New "teapot")).
Proof.
  assert (H : assert_StatusError io_EOF = None) by reflexivity.
  split.
  - split; [exact H |].
    exact (proj1 (proj2 (proj2 (proj2 (proj2
             (status_classes io_EOF "GET" bare_request))))) H).
  - exact (proj2 (proj1 (proj2 (proj2 (proj2 (proj2 (proj2
             (status_classes
                (statusErr (newStatusError http.StatusTeapot
                              (errors_New "teapot")))
                "GET" bare_request))))))
             _ eq_refl)).
Defined.

(** ** Evaluation on concrete inputs *)

Example CanonicalHeaderKey_lower_case :
  CanonicalHeaderKey "x-forwarded-proto" = "X-Forwarded-Proto"
  /\ xForwardedProto = "X-Forwarded-Proto"
  /\ forwarded = "Forwarded".
Proof. repeat split. Qed.

Example time_Unix_carries :
  time_Unix 0 (int64 1500000000) = unixTime 1 500000000
  /\ time_Unix 0 (int64 (-1)) = unixTime (-1) 999999999.
Proof. split; reflexivity. Qed.

Example FindStringSubmatch_leftmost :
  regexp.FindStringSubmatch protoRegex "for=x;PROTO=HTTPSx;proto=http"
  = ["PROTO=HTTPS"; "HTTPS"]
  /\ regexp.FindStringSubmatch protoRegex "proto=http;proto=https"
     = ["proto=http"; "http"]
  /\ regexp.FindStringSubmatch protoRegex "by=x;proto=htt" = [].
Proof. repeat split. Qed.

(** The long s of Unicode is matched by the letter [s] of the pattern, and
    the scheme it gives is not "https". *)
Example FindStringSubmatch_long_s :
  regexp.FindStringSubmatch protoRegex
    ("proto=http" ++ String "197" (String "191" ""))
  = ["proto=http" ++ String "197" (String "191" "");
     "http" ++ String "197" (String "191" "")]
  /\ checkHTTPS
       (request_with "GET"
          {[ "Forwarded" :=
               ["proto=http" ++ String "197" (String "191" "")] ]})
     <> None.
Proof. split; [reflexivity | discriminate]. Qed.

Example checkHTTPS_forwarded_request : checkHTTPS forwarded_request = None.
Proof. reflexivity. Qed.

(** An empty [X-Forwarded-Proto] counts as a missing one, and the
    [Forwarded] header is searched for the text "proto=https", whether it is
    a parameter or not. *)
Example checkHTTPS_beyond_parameters :
  checkHTTPS
    (request_with "GET"
       {[ "X-Forwarded-Proto" := [""]; "Forwarded" := ["proto=https"] ]})
  = None
  /\ has_proto_https_parameter "host=xproto=httpsfoo" = false
  /\ checkHTTPS
       (request_with "GET" {[ "Forwarded" := ["host=xproto=httpsfoo"] ]})
     = None.
Proof. repeat split. Qed.

Example RunTransaction_contended :
  RunTransaction Background (scripted_client contended_store) accept_all
  = None
  /\ RunTransaction Background (scripted_client contended_store)
       reject_retry
     = NotFoundError.
Proof. split; reflexivity. Qed.

(** * Further properties *)

(** ** Causes and messages *)

Lemma Error_root_cause e : Error e = Error (root_cause e).
Proof.
  induction e using error_mut
    with (P0 := fun se =>
                  Error (embedded se) = Error (root_cause (embedded se)));
    try reflexivity.
  - destruct e as [c m x]. simpl in *. exact IHe.
  - simpl. exact IHe.
Qed.

Lemma Error_panics_nil_root e :
  root_cause e = nil_error -> exists reason, Error e = Panics reason.
Proof.
  intros H. rewrite (Error_root_cause e), H. eexists. reflexivity.
Qed.

(** X1: the method [Error], promoted from the embedded error, gives what the
    [Error] of the error at the bottom of the chain of wrappers gives,
    however many [statusError] values wrap it; when that error is nil, it
    panics. *)
Theorem Error_of_wrapped :
  forall e : error,
    Error e = Error (root_cause e)
    /\ (root_cause e = nil_error ->
        exists reason, Error e = Panics reason).
Proof.
  intros e. split; [apply Error_root_cause | apply Error_panics_nil_root].
Qed.

Lemma Error_of_wrapped_witness :
  root_cause (as_error (NewInternalServerError
                          (as_error (NewBadRequestError nil_error))))
  = nil_error
  /\ exists reason,
       Error (as_error (NewInternalServerError
                          (as_error (NewBadRequestError nil_error))))
       = Panics reason.
Proof.
  split; [reflexivity |].
  exact (proj2 (Error_of_wrapped
                  (as_error (NewInternalServerError
                               (as_error (NewBadRequestError nil_error)))))
           eq_refl).
Defined.

Lemma Message_returns_of_Error se text :
  Error (embedded se) = Returns text ->
  exists text', Message se = Returns text'.
Proof.
  intros H. destruct se as [c m x]. unfold Message. simpl in *.
  destruct (String.eqb m ""); simpl; [| eexists; reflexivity].
  rewrite H. eexists. reflexivity.
Qed.

(** X2: when the [Error] of the error at the bottom of [err] returns a
    text, [Message] returns a text, without panic, for the [StatusError]
    that any of [NewBadRequestError], [NewInternalServerError],
    [FirestoreToStatusError] and [JSONToStatusError] makes of [err]. *)
Theorem Message_returns_when_Error_returns :
  forall (err : error) (se : statusError) (text : string),
    Error (root_cause err) = Returns text ->
    NewBadRequestError err = Some se
    \/ NewInternalServerError err = Some se
    \/ FirestoreToStatusError err = Some se
    \/ JSONToStatusError err = Some se ->
    exists text', Message se = Returns text'.
Proof.
  intros err se text Hc H.
  rewrite <- Error_root_cause in Hc.
  assert (B : forall s, NewBadRequestError err = Some s ->
                        exists text', Message s = Returns text').
  { intros s [= <-]. apply (Message_returns_of_Error _ text). exact Hc. }
  assert (I : forall s, NewInternalServerError err = Some s ->
                        exists text', Message s = Returns text').
  { intros s [= <-]. eexists. reflexivity. }
  destruct H as [H | [H | [H | H]]]; [exact (B se H) | exact (I se H) | |].
  - unfold FirestoreToStatusError in H.
    destruct (assert_StatusError err) as [s |] eqn:A.
    + injection H as <-. destruct err; try discriminate A.
      injection A as ->. apply (Message_returns_of_Error _ text).
      destruct s as [c m x]. exact Hc.
    + destruct (codes.eqb (status.Code err) codes.NotFound);
        [| exact (I se H)].
      injection H as <-. eexists. reflexivity.
  - destruct err as [| s | | | t msg | c d | ty msg | s];
      try exact (I se H); try exact (B se H).
    + destruct t; first [exact (B se H) | exact (I se H)].
    + injection H as <-. apply (Message_returns_of_Error _ text).
      destruct s as [c m x]. exact Hc.
Qed.

Lemma Message_returns_when_Error_returns_witness :
  Error (root_cause io_EOF) = Returns "EOF"
  /\ exists text',
       Message (Build_statusError http.StatusBadRequest "" io_EOF)
       = Returns text'.
Proof.
  assert (H : Error (root_cause io_EOF) = Returns "EOF") by reflexivity.
  split; [exact H |].
  exact (Message_returns_when_Error_returns io_EOF
           (Build_statusError http.StatusBadRequest "" io_EOF) "EOF" H
           (or_introl eq_refl)).
Defined.

(** X3: the message of [NewBadRequestError err] is [err.Error()], the text
    of the error at the bottom of [err]: it panics for a nil error, and a
    [StatusError] wrapped this way loses its own message, so that the cause
    of an internal server error becomes the message. *)
Theorem NewBadRequestError_message_is_cause :
  forall err : error,
    option_map Message (NewBadRequestError err)
    = Some (Error (root_cause err))
    /\ (root_cause err = nil_error ->
        exists reason,
          option_map Message (NewBadRequestError err) = Some (Panics reason))
    /\ option_map Message
         (NewBadRequestError (as_error (NewInternalServerError err)))
       = Some (Error (root_cause err)).
Proof.
  intros err.
  assert (E : option_map Message (NewBadRequestError err)
              = Some (Error (root_cause err))).
  { simpl. rewrite Message_of_embedded. f_equal. apply Error_root_cause. }
  split; [exact E |]. split.
  - intros N. apply Error_panics_nil_root in N as [reason N].
    exists reason. rewrite E, <- Error_root_cause, N. reflexivity.
  - simpl. rewrite Message_of_embedded. f_equal.
    apply (Error_root_cause
             (statusErr (Build_statusError http.StatusInternalServerError
                           "internal server error" err))).
Qed.

Lemma NewBadRequestError_message_is_cause_witness :
  root_cause (as_error (NewBadRequestError nil_error)) = nil_error
  /\ exists reason,
       option_map Message
         (NewBadRequestError (as_error (NewBadRequestError nil_error)))
       = Some (Panics reason).
Proof.
  assert (H : root_cause (as_error (NewBadRequestError nil_error))
              = nil_error) by reflexivity.
  split; [exact H |].
  exact (proj1 (proj2 (NewBadRequestError_message_is_cause
                         (as_error (NewBadRequestError nil_error)))) H).
Defined.

(** ** The converters *)

Lemma FirestoreToStatusError_is_Some err :
  exists se, FirestoreToStatusError err = Some se.
Proof.
  unfold FirestoreToStatusError.
  destruct (assert_StatusError err); [eexists; reflexivity |].
  destruct (codes.eqb _ _); eexists; reflexivity.
Qed.

Lemma JSONToStatusError_is_Some err :
  exists se, JSONToStatusError err = Some se.
Proof.
  destruct err as [| s | | | t msg | c d | ty msg | s];
    try (eexists; reflexivity).
  destruct t; eexists; reflexivity.
Qed.

(** X4: the converters never return nil: whatever error they are given, the
    nil error among them, the result is a [StatusError]; the nil error
    becomes an internal server error. *)
Theorem converters_never_nil :
  forall err : error,
    FirestoreToStatusError err <> None
    /\ JSONToStatusError err <> None
    /\ FirestoreToStatusError nil_error = NewInternalServerError nil_error
    /\ JSONToStatusError nil_error = NewInternalServerError nil_error.
Proof.
  intros err. split; [| split; [| split; reflexivity]].
  - destruct (FirestoreToStatusError_is_Some err) as [se ->]. discriminate.
  - destruct (JSONToStatusError_is_Some err) as [se ->]. discriminate.
Qed.

(** X5: a converted error passes through both converters unchanged: each
    converter is idempotent, and each leaves the result of the other as it
    is. *)
Theorem converters_idempotent :
  forall err : error,
    FirestoreToStatusError (as_error (FirestoreToStatusError err))
    = FirestoreToStatusError err
    /\ JSONToStatusError (as_error (JSONToStatusError err))
       = JSONToStatusError err
    /\ JSONToStatusError (as_error (FirestoreToStatusError err))
       = FirestoreToStatusError err
    /\ FirestoreToStatusError (as_error (JSONToStatusError err))
       = JSONToStatusError err.
Proof.
  intros err.
  destruct (FirestoreToStatusError_is_Some err) as [sf ->].
  destruct (JSONToStatusError_is_Some err) as [sj ->].
  repeat split.
Qed.

(** ** Clocks and stores in a context *)

(** X6: the wrappers of this package and values under foreign keys do not
    disturb one another: in a context built by any sequence of them, [Now]
    follows the fake clock attached last, or the context underneath when
    none was attached, and the lookup of the test store finds the store
    attached last. *)
Theorem wrappers_do_not_interfere :
  forall (time_Now : Time) (ws : list wrapper) (ctx : context),
    Now time_Now (apply_wrappers ws ctx)
    = match last_clock ws with
      | Some t => Returns (time_Unix 0 (int64 t))
      | None => Now time_Now ctx
      end
    /\ Value (apply_wrappers ws ctx) testFirestoreContextKey
       = match last_store ws with
         | Some store => any_TestFirestore store
         | None => Value ctx testFirestoreContextKey
         end.
Proof.
  intros time_Now ws ctx. induction ws as [| w ws [IHc IHs]];
    [split; reflexivity |].
  destruct w as [t | store | name val]; simpl; split;
    try reflexivity; try exact IHs; exact IHc.
Qed.

Lemma int64_id (t : Z) :
  (- 2 ^ 63 <= t < 2 ^ 63)%Z -> int64 t = t.
Proof.
  intros H. unfold int64.
  rewrite Z.mod_small by lia. lia.
Qed.

Lemma time_Unix_normal (n : Z) :
  (0 <= nsec (time_Unix 0 n) < 1000000000)%Z
  /\ (sec (time_Unix 0 n) * 1000000000 + nsec (time_Unix 0 n) = n)%Z.
Proof.
  unfold time_Unix.
  destruct ((n <? 0)%Z || (1000000000 <=? n)%Z) eqn:E.
  - pose proof (Z.quot_rem' n 1000000000) as Q.
    pose proof (Z.rem_bound_pos_pos n 1000000000) as Bp.
    pose proof (Z.rem_bound_pos_neg n 1000000000) as Bn.
    change (0 + n ÷ 1000000000)%Z with (n ÷ 1000000000)%Z.
    destruct (n - n ÷ 1000000000 * 1000000000 <? 0)%Z eqn:E2; simpl.
    + apply Z.ltb_lt in E2. lia.
    + apply Z.ltb_ge in E2. lia.
  - simpl. apply orb_false_iff in E as [E1 E2].
    apply Z.ltb_ge in E1. apply Z.leb_gt in E2. lia.
Qed.

(** X7: for a fake clock of [t] nanoseconds, [t] an [int64], [Now] returns
    the normalised time that is [t] nanoseconds after the Unix epoch: its
    nanoseconds are within [0, 1e9), also for a negative [t], and seconds
    and nanoseconds add up to [t]. *)
Theorem fake_clock_exact_nanoseconds :
  forall (time_Now : Time) (ctx : context) (t : Duration),
    (- 2 ^ 63 <= t < 2 ^ 63)%Z ->
    exists tm,
      Now time_Now (WithFakeClock ctx t) = Returns tm
      /\ (0 <= nsec tm < 1000000000)%Z
      /\ (sec tm * 1000000000 + nsec tm = t)%Z.
Proof.
  intros time_Now ctx t H. exists (time_Unix 0 (int64 t)).
  split; [reflexivity |]. rewrite (int64_id t H). apply time_Unix_normal.
Qed.

Lemma fake_clock_exact_nanoseconds_witness :
  (- 2 ^ 63 <= -1 < 2 ^ 63)%Z
  /\ exists tm,
       Now (unixTime 7 0) (WithFakeClock Background (-1)%Z) = Returns tm
       /\ (0 <= nsec tm < 1000000000)%Z
       /\ (sec tm * 1000000000 + nsec tm = -1)%Z.
Proof.
  assert (H : (- 2 ^ 63 <= -1 < 2 ^ 63)%Z) by (vm_compute; split; congruence).
  split; [exact H |].
  exact (fake_clock_exact_nanoseconds (unixTime 7 0) Background (-1)%Z H).
Defined.

(** ** Construction of the request context *)

Lemma connected_cases p w r project opts :
  (exists c,
     connected p w r project opts = Returns (inl c)
     /\ firestore_NewClient p (Request_Context r) project opts
        = (FirestoreClient c, nil_error)
     /\ HTTPRequest c = r /\ HTTPResponseWriter c = w
     /\ Context_Context c = Request_Context r)
  \/ (exists c err,
        firestore_NewClient p (Request_Context r) project opts = (c, err)
        /\ err <> nil_error
        /\ connected p w r project opts
           = Returns (inr (NewInternalServerError err))).
Proof.
  unfold connected.
  destruct (firestore_NewClient p (Request_Context r) project opts)
    as [c err] eqn:E.
  destruct err; [left; eexists; repeat split | ..];
    right; exists c; eexists; (split; [reflexivity |]);
    (split; [discriminate | reflexivity]).
Qed.

(** The project and the options that [NewContext] settles on, when it gets
    as far as connecting. *)
Lemma NewContext_cases p w r :
  (exists project opts, NewContext p w r = connected p w r project opts)
  \/ (exists reason, NewContext p w r = Panics reason)
  \/ (exists store opt err,
        Value (Request_Context r) testFirestoreContextKey
        = any_TestFirestore store
        /\ TestFirestore_clientOption p store = Returns (opt, err)
        /\ err <> nil_error
        /\ NewContext p w r = Returns (inr (NewInternalServerError err))).
Proof.
  unfold NewContext. fold (connected p w r).
  destruct (negb (String.eqb (os_Getenv p "FIRESTORE_EMULATOR_HOST") "")
            || negb (is_any_nil
                       (Value (Request_Context r) testFirestoreContextKey)));
    [| left; eexists; eexists; reflexivity].
  destruct (Value (Request_Context r) testFirestoreContextKey)
    as [| d | store | descr] eqn:V;
    try (left; eexists; eexists; reflexivity).
  destruct (TestFirestore_clientOption p store) as [[opt err] | reason] eqn:C;
    [| right; left; eexists; reflexivity].
  destruct err;
    try (right; right; exists store, opt; eexists;
         repeat split; [exact C | discriminate]).
  destruct store as [s |];
    [left; eexists; eexists; reflexivity
    | right; left; eexists; reflexivity].
Qed.



(** X9: a [Context] that [NewContext] returns gives back the request and
    the response writer it was made from, embeds the context of the
    request, so that [Now] reads the same clock, holds the client that
    [firestore.NewClient] returned without error, and accepts the method of
    its own request. *)
Theorem NewContext_success :
  forall (p : Platform) (w : ResponseWriter) (r : Request) (c : Context),
    NewContext p w r = Returns (inl c) ->
    HTTPRequest c = r
    /\ HTTPResponseWriter c = w
    /\ Context_Context c = Request_Context r
    /\ (exists project opts,
          firestore_NewClient p (Request_Context r) project opts
          = (FirestoreClient c, nil_error))
    /\ (forall errMsg, ValidateRequestMethod c (Method r) errMsg = None)
    /\ (forall time_Now,
          Now time_Now (Context_Context c)
          = Now time_Now (Request_Context r)).
Proof.
  intros p w r c H.
  destruct (NewContext_cases p w r)
    as [(project & opts & E) | [(reason & E) | (store & opt & err & _ & _ & _ & E)]];
    rewrite E in H; try discriminate H.
  destruct (connected_cases p w r project opts)
    as [(c' & E' & Hn & Hr & Hw & Hc) | (c' & err & _ & _ & E')];
    rewrite E' in H; [| discriminate H].
  injection H as <-.
  split; [exact Hr |]. split; [exact Hw |]. split; [exact Hc |].
  split; [exists project, opts; exact Hn |]. split.
  - intros errMsg. unfold ValidateRequestMethod. rewrite Hr.
    rewrite String.eqb_refl. reflexivity.
  - intros time_Now. rewrite Hc. reflexivity.
Qed.

(** X10: the three ways to pick the store: without the emulator variable
    and without a test store in the context, the project is detected from
    the environment; with the variable alone the project is "test", without
    options; a test store in the context gives its own project and option,
    whatever the variable says. *)
Theorem NewContext_project_selection :
  forall (p : Platform) (w : ResponseWriter) (r : Request),
    (os_Getenv p "FIRESTORE_EMULATOR_HOST" = "" ->
     Value (Request_Context r) testFirestoreContextKey = any_nil ->
     NewContext p w r = connected p w r firestore.DetectProjectID [])
    /\ (os_Getenv p "FIRESTORE_EMULATOR_HOST" <> "" ->
        Value (Request_Context r) testFirestoreContextKey = any_nil ->
        NewContext p w r = connected p w r "test" [])
    /\ (forall s opt,
          Value (Request_Context r) testFirestoreContextKey
          = any_TestFirestore (Some s) ->
          TestFirestore_clientOption p (Some s) = Returns (opt, nil_error) ->
          NewContext p w r = connected p w r (projectID s) [opt]).
Proof.
  intros p w r. unfold NewContext. fold (connected p w r). repeat split.
  - intros -> ->. reflexivity.
  - intros N ->. apply String.eqb_neq in N. rewrite N. reflexivity.
  - intros s opt -> ->. rewrite orb_true_r. reflexivity.
Qed.

(** X11: with a nil [*TestFirestore] stored in the context of the request,
    [NewContext] never returns a [Context]: it panics or it fails with an
    internal server error. *)
Theorem NewContext_nil_store :
  forall (p : Platform) (w : ResponseWriter) (r : Request),
    Value (Request_Context r) testFirestoreContextKey
    = any_TestFirestore None ->
    (exists reason, NewContext p w r = Panics reason)
    \/ (exists err,
          err <> nil_error
          /\ NewContext p w r = Returns (inr (NewInternalServerError err))).
Proof.
  intros p w r V. unfold NewContext. rewrite V. rewrite orb_true_r.
  destruct (TestFirestore_clientOption p None) as [[opt err] | reason];
    [| left; eexists; reflexivity].
  destruct err;
    try (right; eexists; split; [| reflexivity]; discriminate).
  left. eexists. reflexivity.
Qed.


Lemma NewContext_success_witness :
  exists c,
    NewContext sample_platform empty_writer (request_with_store "unit")
    = Returns (inl c)
    /\ HTTPRequest c = request_with_store "unit"
    /\ Now (unixTime 7 0) (Context_Context c)
       = Returns (unixTime 1 500000000).
Proof.
  eexists.
  assert (H : NewContext sample_platform empty_writer
                (request_with_store "unit")
              = Returns (inl {| resp := empty_writer;
                                req := request_with_store "unit";
                                client := scripted_client [];
                                Context_Context :=
                                  Request_Context
                                    (request_with_store "unit") |}))
    by reflexivity.
  split; [exact H |].
  split.
  - exact (proj1 (NewContext_success sample_platform empty_writer
                    (request_with_store "unit") _ H)).
  - exact (proj2 (proj2 (proj2 (proj2 (proj2
             (NewContext_success sample_platform empty_writer
                (request_with_store "unit") _ H))))) (unixTime 7 0)).
Defined.

Lemma NewContext_project_selection_witness :
  (os_Getenv production_platform "FIRESTORE_EMULATOR_HOST" = ""
   /\ Value (Request_Context bare_request) testFirestoreContextKey = any_nil
   /\ NewContext production_platform empty_writer bare_request
      = connected production_platform empty_writer bare_request
          firestore.DetectProjectID [])
  /\ (os_Getenv sample_platform "FIRESTORE_EMULATOR_HOST" <> ""
      /\ NewContext sample_platform empty_writer bare_request
         = connected sample_platform empty_writer bare_request "test" [])
  /\ (Value (Request_Context (request_with_store "unit"))
        testFirestoreContextKey
      = any_TestFirestore (Some {| projectID := "unit" |})
      /\ NewContext production_platform empty_writer
           (request_with_store "unit")
         = connected production_platform empty_writer
             (request_with_store "unit") "unit"
             [client_option "grpc connection"]).
Proof.
  assert (N : os_Getenv sample_platform "FIRESTORE_EMULATOR_HOST" <> "")
    by discriminate.
  split; [| split].
  - split; [reflexivity |]. split; [reflexivity |].
    exact (proj1 (NewContext_project_selection production_platform
                    empty_writer bare_request) eq_refl eq_refl).
  - split; [exact N |].
    exact (proj1 (proj2 (NewContext_project_selection sample_platform
                           empty_writer bare_request)) N eq_refl).
  - split; [reflexivity |].
    exact (proj2 (proj2 (NewContext_project_selection production_platform
                           empty_writer (request_with_store "unit")))
             {| projectID := "unit" |} (client_option "grpc connection")
             eq_refl eq_refl).
Defined.

Lemma NewContext_nil_store_witness :
  Value (Request_Context request_with_nil_store) testFirestoreContextKey
  = any_TestFirestore None
  /\ ((exists reason,
         NewContext sample_platform empty_writer request_with_nil_store
         = Panics reason)
      \/ (exists err,
            err <> nil_error
            /\ NewContext sample_platform empty_writer request_with_nil_store
               = Returns (inr (NewInternalServerError err)))).
Proof.
  assert (H : Value (Request_Context request_with_nil_store)
                testFirestoreContextKey = any_TestFirestore None)
    by reflexivity.
  split; [exact H |].
  exact (NewContext_nil_store sample_platform empty_writer
           request_with_nil_store H).
Defined.

(** ** Header keys *)

Ltac each_byte c :=
  destruct c as [[] [] [] [] [] [] [] []]; vm_compute; reflexivity.

Lemma upper_lower_byte c :
  textproto.upper_byte (strings.lower_byte c) = textproto.upper_byte c.
Proof. each_byte c. Qed.

Lemma lower_lower_byte c :
  strings.lower_byte (strings.lower_byte c) = strings.lower_byte c.
Proof. each_byte c. Qed.

Lemma upper_upper_byte c :
  textproto.upper_byte (textproto.upper_byte c) = textproto.upper_byte c.
Proof. each_byte c. Qed.

Lemma valid_lower_byte c :
  textproto.validHeaderFieldByte (strings.lower_byte c)
  = textproto.validHeaderFieldByte c.
Proof. each_byte c. Qed.

Lemma valid_upper_byte c :
  textproto.validHeaderFieldByte (textproto.upper_byte c)
  = textproto.validHeaderFieldByte c.
Proof. each_byte c. Qed.

Lemma all_valid_ToLower s :
  textproto.all_valid (strings.ToLower s) = textproto.all_valid s.
Proof.
  induction s as [| c s IH]; [reflexivity |].
  cbn [strings.ToLower textproto.all_valid].
  now rewrite valid_lower_byte, IH.
Qed.

Lemma canonical_ToLower s :
  forall upper,
    textproto.canonical upper (strings.ToLower s)
    = textproto.canonical upper s.
Proof.
  induction s as [| c s IH]; intros upper; [reflexivity |].
  cbn [strings.ToLower textproto.canonical].
  destruct upper; rewrite ?upper_lower_byte, ?lower_lower_byte, IH;
    reflexivity.
Qed.

Lemma all_valid_canonical s :
  forall upper,
    textproto.all_valid (textproto.canonical upper s) = textproto.all_valid s.
Proof.
  induction s as [| c s IH]; intros upper; [reflexivity |].
  cbn [textproto.canonical textproto.all_valid].
  rewrite IH. destruct upper;
    rewrite ?valid_upper_byte, ?valid_lower_byte; reflexivity.
Qed.

Lemma canonical_canonical s :
  forall upper,
    textproto.canonical upper (textproto.canonical upper s)
    = textproto.canonical upper s.
Proof.
  induction s as [| c s IH]; intros upper; [reflexivity |].
  cbn [textproto.canonical].
  destruct upper; rewrite ?upper_upper_byte, ?lower_lower_byte, IH;
    reflexivity.
Qed.

Lemma CanonicalHeaderKey_idempotent s :
  CanonicalHeaderKey (CanonicalHeaderKey s) = CanonicalHeaderKey s.
Proof.
  unfold CanonicalHeaderKey, textproto.CanonicalMIMEHeaderKey.
  destruct (textproto.all_valid s) eqn:E.
  - rewrite all_valid_canonical, E. apply canonical_canonical.
  - rewrite E. reflexivity.
Qed.

Lemma CanonicalHeaderKey_ToLower s :
  CanonicalHeaderKey (strings.ToLower s) = CanonicalHeaderKey s
  \/ textproto.all_valid s = false.
Proof.
  unfold CanonicalHeaderKey, textproto.CanonicalMIMEHeaderKey.
  rewrite all_valid_ToLower.
  destruct (textproto.all_valid s); [left | right; reflexivity].
  apply canonical_ToLower.
Qed.

(** X12: the lookup of a header does not depend on the case of the key: two
    keys made of the bytes allowed in a field name and equal up to case give
    the same value, and so does the canonical form of a key. *)
Theorem Header_Get_key_case_insensitive :
  forall (h : http_Header) (k1 k2 : string),
    textproto.all_valid k1 = true ->
    strings.ToLower k1 = strings.ToLower k2 ->
    Header_Get h k1 = Header_Get h k2
    /\ Header_Get h (CanonicalHeaderKey k1) = Header_Get h k1.
Proof.
  intros h k1 k2 V E.
  assert (V2 : textproto.all_valid k2 = true).
  { rewrite <- all_valid_ToLower, <- E, all_valid_ToLower. exact V. }
  split.
  - unfold Header_Get.
    destruct (CanonicalHeaderKey_ToLower k1) as [C1 | C1]; [| congruence].
    destruct (CanonicalHeaderKey_ToLower k2) as [C2 | C2]; [| congruence].
    rewrite <- C1, <- C2, E. reflexivity.
  - unfold Header_Get. rewrite CanonicalHeaderKey_idempotent. reflexivity.
Qed.

Lemma Header_Get_key_case_insensitive_witness :
  textproto.all_valid "x-forwarded-PROTO" = true
  /\ strings.ToLower "x-forwarded-PROTO"
     = strings.ToLower "X-Forwarded-Proto"
  /\ Header_Get (Header downgraded_request) "x-forwarded-PROTO"
     = Header_Get (Header downgraded_request) "X-Forwarded-Proto".
Proof.
  split; [reflexivity |]. split; [reflexivity |].
  exact (proj1 (Header_Get_key_case_insensitive (Header downgraded_request)
                  "x-forwarded-PROTO" "X-Forwarded-Proto"
                  eq_refl eq_refl)).
Defined.

(** ** The HSTS header *)



(** ** What [checkHTTPS] reads *)

Lemma forwarded_scheme_reads r r' :
  Header_Get (Header r) xForwardedProto
  = Header_Get (Header r') xForwardedProto ->
  (Header_Get (Header r) xForwardedProto = "" ->
   Header_Get (Header r) forwarded = Header_Get (Header r') forwarded) ->
  forwarded_scheme r = forwarded_scheme r'.
Proof.
  intros Hx Hf. unfold forwarded_scheme. rewrite <- Hx.
  destruct (String.eqb (Header_Get (Header r) xForwardedProto) "") eqn:E;
    [| reflexivity].
  apply String.eqb_eq in E. rewrite <- (Hf E). reflexivity.
Qed.

(** X14: [checkHTTPS] reads the first value of [X-Forwarded-Proto] and, only
    when that is empty, the first value of [Forwarded]: two requests that
    agree there get the same answer, whatever their method, their other
    headers and their further values. *)
Theorem checkHTTPS_reads_two_values :
  forall r r' : Request,
    Header_Get (Header r) xForwardedProto
    = Header_Get (Header r') xForwardedProto ->
    (Header_Get (Header r) xForwardedProto = "" ->
     Header_Get (Header r) forwarded = Header_Get (Header r') forwarded) ->
    checkHTTPS r = checkHTTPS r'.
Proof.
  intros r r' Hx Hf. unfold checkHTTPS.
  rewrite (forwarded_scheme_reads r r' Hx Hf). reflexivity.
Qed.

(** X15: a non-empty [X-Forwarded-Proto] decides alone: the request is
    accepted exactly when it is "https" up to case, so that a [Forwarded]
    header cannot turn a request marked http into a secure one. *)
Theorem X_Forwarded_Proto_decides :
  forall r : Request,
    Header_Get (Header r) xForwardedProto <> "" ->
    (checkHTTPS r = None
     <-> strings.ToLower (Header_Get (Header r) xForwardedProto) = "https").
Proof.
  intros r N. apply checkHTTPS_scheme. unfold forwarded_scheme.
  apply String.eqb_neq in N. rewrite N. reflexivity.
Qed.

(** X16: every rejection of [checkHTTPS] is the same error: status 418 and
    the message "unsupported protocol HTTP; only HTTPS is supported", which
    is also its [Error] text. *)
Theorem checkHTTPS_rejection :
  forall (r : Request) (se : statusError),
    checkHTTPS r = Some se ->
    HTTPStatusCode se = http.StatusTeapot
    /\ Message se
       = Returns "unsupported protocol HTTP; only HTTPS is supported"
    /\ Error (statusErr se)
       = Returns "unsupported protocol HTTP; only HTTPS is supported".
Proof.
  intros r se H. destruct (checkHTTPS_teapot r) as [E | E];
    rewrite E in H; [discriminate H |].
  injection H as <-. repeat split.
Qed.

(** ** Instances *)

Lemma checkHTTPS_reads_two_values_witness :
  Header_Get (Header (request_with "POST"
                        {[ "X-Forwarded-Proto" := ["https"; "http"];
                           "Forwarded" := ["proto=http"] ]}))
    xForwardedProto
  = Header_Get (Header (request_with "GET"
                          {[ "X-Forwarded-Proto" := ["https"] ]}))
      xForwardedProto
  /\ checkHTTPS (request_with "POST"
                   {[ "X-Forwarded-Proto" := ["https"; "http"];
                      "Forwarded" := ["proto=http"] ]})
     = checkHTTPS (request_with "GET"
                     {[ "X-Forwarded-Proto" := ["https"] ]}).
Proof.
  split; [reflexivity |].
  apply (checkHTTPS_reads_two_values
           (request_with "POST"
              {[ "X-Forwarded-Proto" := ["https"; "http"];
                 "Forwarded" := ["proto=http"] ]})
           (request_with "GET" {[ "X-Forwarded-Proto" := ["https"] ]})).
  - reflexivity.
  - intros H. vm_compute in H. discriminate H.
Defined.

Lemma X_Forwarded_Proto_decides_witness :
  Header_Get (Header (request_with "GET"
                        {[ "X-Forwarded-Proto" := ["http"];
                           "Forwarded" := ["proto=https"] ]}))
    xForwardedProto <> ""
  /\ checkHTTPS (request_with "GET"
                   {[ "X-Forwarded-Proto" := ["http"];
                      "Forwarded" := ["proto=https"] ]}) <> None.
Proof.
  assert (N : Header_Get (Header (request_with "GET"
                                    {[ "X-Forwarded-Proto" := ["http"];
                                       "Forwarded" := ["proto=https"] ]}))
                xForwardedProto <> "") by discriminate.
  split; [exact N |].
  intros H.
  apply (proj1 (X_Forwarded_Proto_decides
                  (request_with "GET"
                     {[ "X-Forwarded-Proto" := ["http"];
                        "Forwarded" := ["proto=https"] ]}) N)) in H.
  vm_compute in H. discriminate H.
Defined.

Lemma checkHTTPS_rejection_witness :
  checkHTTPS bare_request
  = Some (newStatusError http.StatusTeapot
            (errors_New "unsupported protocol HTTP; only HTTPS is supported"))
  /\ Message (newStatusError http.StatusTeapot
                (errors_New
                   "unsupported protocol HTTP; only HTTPS is supported"))
     = Returns "unsupported protocol HTTP; only HTTPS is supported".
Proof.
  assert (H : checkHTTPS bare_request
              = Some (newStatusError http.StatusTeapot
                        (errors_New
                           "unsupported protocol HTTP; only HTTPS is supported")))
    by reflexivity.
  split; [exact H |].
  exact (proj1 (proj2 (checkHTTPS_rejection bare_request _ H))).
Defined.

